(** * Connection handlers of the workflow editor

    A shallow embedding of
    [invokeai/frontend/web/src/features/nodes/hooks/useConnection.ts]:
    the three callbacks [onConnectStart], [onConnect] and [onConnectEnd]
    that the hook [useConnection] hands to the graph renderer.

    The callbacks read and write a handful of observable cells
    ([$pendingConnection], [$edgePendingUpdate], [$mouseOverNode],
    [$didUpdateEdge], [$addNodeCmdk]), read the redux store, dispatch
    [edgesChanged] actions and call [updateNodeInternals].  They are
    modelled in a state-and-exception monad over a record [World] that
    holds the cells, the part of the store the callbacks read and the
    trace of the calls they make to the outside.  Reads of the template
    objects follow JavaScript: they see what plain objects inherit, and
    their results are tested by truthiness. *)

From stdpp Require Import base option list strings gmap.

Local Open Scope string_scope.
Local Open Scope list_scope.

(** ** Data *)

(** [HandleType] of the renderer: ['source' | 'target']. *)
Inductive HandleType : Type :=
  | Source
  | Target.

Global Instance HandleType_eq_dec : EqDecision HandleType.
Proof. solve_decision. Defined.

(** Modelled from the spec: the declarations of [FieldInputTemplate] and
    [FieldOutputTemplate] are not part of the hook's file.  The callbacks
    only look such a value up and store it; following the specification's
    data model it is a value that carries the field's name and its data
    type. *)
Record FieldTemplate : Type := {
  field_name : string;
  field_type : string;
}.

(** A template, keyed by node type in [$templates]: one map of field
    templates for the outputs and one for the inputs. *)
Record Template : Type := {
  inputs : gmap string FieldTemplate;
  outputs : gmap string FieldTemplate;
}.

Abbreviation Templates := (gmap string Template).

(** ** Property reads

    [$templates], [template.inputs] and [template.outputs] are plain
    objects, and the hook reads them with [object[key]] and tests the
    result by truthiness.  Such a read finds the object's own entry, or
    else what every plain object inherits from [Object.prototype]; only
    when neither exists is the result [undefined].  The maps of the
    model hold the own entries. *)
Definition objectPrototype : list string :=
  [ "constructor"; "__defineGetter__"; "__defineSetter__"; "hasOwnProperty";
    "__lookupGetter__"; "__lookupSetter__"; "isPrototypeOf";
    "propertyIsEnumerable"; "toString"; "valueOf"; "__proto__";
    "toLocaleString" ].

(** What a read gives when it is not [undefined]: an own value, or the
    value inherited under [key] (a function, or [Object.prototype]
    itself for [__proto__]); both are truthy. *)
Inductive Property (V : Type) : Type :=
  | Own (v : V)
  | Inherited (key : string).
Arguments Own {V} v.
Arguments Inherited {V} key.

(** [object[key]]; [None] is [undefined]. *)
Definition readProperty {V : Type} (object : gmap string V) (key : string)
    : option (Property V) :=
  match object !! key with
  | Some v => Some (Own v)
  | None =>
      if bool_decide (key ∈ objectPrototype) then Some (Inherited key) else None
  end.

(** A node of the store: [n.id] and [n.data.type]. *)
Record Node : Type := {
  node_id : string;
  node_data_type : string;
}.

(** An edge of the store.  The handles are [string | null]. *)
Record Edge : Type := {
  edge_id : string;
  edge_source : string;
  edge_sourceHandle : option string;
  edge_target : string;
  edge_targetHandle : option string;
}.

(** The renderer's [Connection]. *)
Record Connection : Type := {
  conn_source : string;
  conn_sourceHandle : option string;
  conn_target : string;
  conn_targetHandle : option string;
}.

(** The value held by [$pendingConnection].  [fieldTemplate] is
    whatever the read [fieldTemplates[handleId]] gave. *)
Record PendingConnection : Type := {
  nodeId : string;
  handleId : string;
  handleType : HandleType;
  fieldTemplate : Property FieldTemplate;
}.

(** The second argument of [onConnectStart]; each field is nullable in
    the renderer's [OnConnectStartParams]. *)
Record OnConnectStartParams : Type := {
  params_nodeId : option string;
  params_handleId : option string;
  params_handleType : option HandleType;
}.

(** [EdgeChange]: only the two shapes the hook builds. *)
Inductive EdgeChange : Type :=
  | EdgeAdd (item : Edge)
  | EdgeRemove (id : string).

(** What a callback does to the outside, in the order it does it:
    [dispatch(edgesChanged(changes))] and [updateNodeInternals(ids)]. *)
Inductive Effect : Type :=
  | DispatchEdgesChanged (changes : list EdgeChange)
  | UpdateNodeInternals (ids : list string).

(** The cells, the store slice and the trace. *)
Record World : Type := {
  nodes : list Node;
  edges : list Edge;
  pendingConnection : option PendingConnection;
  edgePendingUpdate : option Edge;
  mouseOverNode : option string;
  didUpdateEdge : bool;
  addNodeCmdk : bool;
  effects : list Effect;
}.

Definition set_pendingConnection (v : option PendingConnection) (w : World) : World :=
  {| nodes := nodes w; edges := edges w;
     pendingConnection := v;
     edgePendingUpdate := edgePendingUpdate w;
     mouseOverNode := mouseOverNode w;
     didUpdateEdge := didUpdateEdge w;
     addNodeCmdk := addNodeCmdk w;
     effects := effects w |}.

Definition set_didUpdateEdge (v : bool) (w : World) : World :=
  {| nodes := nodes w; edges := edges w;
     pendingConnection := pendingConnection w;
     edgePendingUpdate := edgePendingUpdate w;
     mouseOverNode := mouseOverNode w;
     didUpdateEdge := v;
     addNodeCmdk := addNodeCmdk w;
     effects := effects w |}.

Definition set_addNodeCmdk (v : bool) (w : World) : World :=
  {| nodes := nodes w; edges := edges w;
     pendingConnection := pendingConnection w;
     edgePendingUpdate := edgePendingUpdate w;
     mouseOverNode := mouseOverNode w;
     didUpdateEdge := didUpdateEdge w;
     addNodeCmdk := v;
     effects := effects w |}.

Definition emit (e : Effect) (w : World) : World :=
  {| nodes := nodes w; edges := edges w;
     pendingConnection := pendingConnection w;
     edgePendingUpdate := edgePendingUpdate w;
     mouseOverNode := mouseOverNode w;
     didUpdateEdge := didUpdateEdge w;
     addNodeCmdk := addNodeCmdk w;
     effects := effects w ++ [e] |}.

(** ** JavaScript truthiness

    The hook tests its nullable strings with [&&], [!] and [if]: [null]
    and the empty string are both falsy.  Objects ([Edge],
    [PendingConnection], [Connection], the values found in the store)
    are falsy only when [null] or [undefined]. *)
Definition truthy (s : option string) : bool :=
  match s with
  | None => false
  | Some EmptyString => false
  | Some (String _ _) => true
  end.

(** The string a truthy value narrows to. *)
Definition whenTruthy (s : option string) : option string :=
  if truthy s then s else None.

(** Truthiness of a nullable object. *)
Definition present {A : Type} (o : option A) : bool :=
  match o with
  | None => false
  | Some _ => true
  end.

(** ** The callback monad: state with exceptions

    A failed [assert] throws; the world at the time of the throw is
    kept, since the cells are global and outlive the call. *)
Inductive Outcome (A : Type) : Type :=
  | Returned (a : A) (w : World)
  | Thrown (msg : string) (w : World).
Arguments Returned {A} a w.
Arguments Thrown {A} msg w.

Definition Handler (A : Type) : Type := World → Outcome A.

Definition ret {A : Type} (a : A) : Handler A :=
  λ w, Returned a w.

Definition bind {A B : Type} (m : Handler A) (f : A → Handler B) : Handler B :=
  λ w,
    match m w with
    | Returned a w' => f a w'
    | Thrown msg w' => Thrown msg w'
    end.

Definition throw {A : Type} (msg : string) : Handler A :=
  λ w, Thrown msg w.

Declare Scope handler_scope.
Delimit Scope handler_scope with handler.
Bind Scope handler_scope with Handler.

Notation "x ← y ; z" := (bind y (λ x, z))
  (at level 20, y at level 100, z at level 200, only parsing) : handler_scope.
Notation "' x ← y ; z" := (bind y (λ x, z))
  (at level 20, x pattern, y at level 100, z at level 200, only parsing) : handler_scope.
Notation "x ;; z" := (bind x (λ _, z))
  (at level 100, z at level 200, only parsing, right associativity) : handler_scope.

Local Open Scope handler_scope.

Definition get {A : Type} (cell : World → A) : Handler A :=
  λ w, Returned (cell w) w.

Definition update (f : World → World) : Handler () :=
  λ w, Returned () (f w).

Definition dispatch (changes : list EdgeChange) : Handler () :=
  update (emit (DispatchEdgesChanged changes)).

Definition updateNodeInternals (ids : list string) : Handler () :=
  update (emit (UpdateNodeInternals ids)).

(** The world a call leaves behind, however it ended. *)
Definition world_after {A : Type} (o : Outcome A) : World :=
  match o with
  | Returned _ w => w
  | Thrown _ w => w
  end.

Definition threw {A : Type} (o : Outcome A) : bool :=
  match o with
  | Returned _ _ => false
  | Thrown _ _ => true
  end.

(** ** The callbacks *)

Definition invalidStart : string := "Invalid connection start event".

(** The [TypeError] of a property read on [undefined]. *)
Definition readOfUndefined : string :=
  "TypeError: Cannot read properties of undefined".

(** [onConnectStart(event, { nodeId, handleId, handleType })].  The
    event itself is not used.  [templates] is the value of [$templates]
    the hook was rendered with. *)
Definition onConnectStart (templates : Templates) (params : OnConnectStartParams)
    : Handler () :=
  match whenTruthy (params_nodeId params),
        whenTruthy (params_handleId params),
        params_handleType params with
  | Some nodeId, Some handleId, Some handleType =>
      nodes ← get nodes;
      match find (λ n, bool_decide (node_id n = nodeId)) nodes with
      | None => ret ()
      | Some node =>
          match readProperty templates (node_data_type node) with
          | None => ret ()
          | Some (Inherited _) =>
              (* an inherited value has neither [outputs] nor [inputs]:
                 [fieldTemplates] is [undefined] and reading [handleId]
                 from it throws *)
              throw readOfUndefined
          | Some (Own template) =>
              let fieldTemplates :=
                match handleType with
                | Source => outputs template
                | Target => inputs template
                end in
              match readProperty fieldTemplates handleId with
              | None => ret ()
              | Some fieldTemplate =>
                  update (set_pendingConnection
                    (Some {| nodeId := nodeId; handleId := handleId;
                             handleType := handleType;
                             fieldTemplate := fieldTemplate |}))
              end
          end
      end
  | _, _, _ => throw invalidStart
  end.

(** The test of the first [if] of [onConnectEnd], on the cells it reads:
    [(edgePendingUpdate && !mouseOverNodeId) || $didUpdateEdge.get()]. *)
Definition bailOut (w : World) : bool :=
  (present (edgePendingUpdate w) && negb (truthy (mouseOverNode w)))
  || didUpdateEdge w.

Section Hook.

(** The two helpers the hook imports from
    [features/nodes/store/util]; their code is not part of the hook's
    file, so the callbacks are parametrised by them.
    [getFirstValidConnection] returns [Connection | null];
    [connectionToEdge] turns a connection into the edge to add. *)
Variable getFirstValidConnection :
  string → option string → string → option string →
  list Node → list Edge → Templates → option Edge → option Connection.
Variable connectionToEdge : Connection → Edge.

(** [onConnect(connection)]. *)
Definition onConnect (connection : Connection) : Handler () :=
  let newEdge := connectionToEdge connection in
  dispatch [EdgeAdd newEdge];;
  updateNodeInternals [edge_source newEdge; edge_target newEdge];;
  update (set_pendingConnection None).

(** [onConnectEnd()].  The source reads [$didUpdateEdge] inside the
    test of its first [if]; reading a cell changes nothing, so the read
    is done with the other three.  Each early [return] is the end of
    its branch here. *)
Definition onConnectEnd (templates : Templates) : Handler () :=
  pendingConnection ← get pendingConnection;
  edgePendingUpdate ← get edgePendingUpdate;
  mouseOverNodeId ← get mouseOverNode;
  didUpdate ← get didUpdateEdge;
  if (present edgePendingUpdate && negb (truthy mouseOverNodeId)) || didUpdate
  then update (set_pendingConnection None)
  else
    match pendingConnection with
    | None => ret ()
    | Some pendingConnection =>
        nodes ← get nodes;
        edges ← get edges;
        match whenTruthy mouseOverNodeId with
        | Some mouseOverNodeId =>
            let handleType := handleType pendingConnection in
            let source :=
              if decide (handleType = Source)
              then nodeId pendingConnection else mouseOverNodeId in
            let sourceHandle :=
              if decide (handleType = Source)
              then Some (handleId pendingConnection) else None in
            let target :=
              if decide (handleType = Target)
              then nodeId pendingConnection else mouseOverNodeId in
            let targetHandle :=
              if decide (handleType = Target)
              then Some (handleId pendingConnection) else None in
            match getFirstValidConnection source sourceHandle target targetHandle
                    nodes edges templates edgePendingUpdate with
            | Some connection =>
                let newEdge := connectionToEdge connection in
                let edgeChanges := [EdgeAdd newEdge] in
                let nodesToUpdate := [edge_source newEdge; edge_target newEdge] in
                '(edgeChanges, nodesToUpdate) ←
                  match edgePendingUpdate with
                  | Some edgePendingUpdate =>
                      update (set_didUpdateEdge true);;
                      ret (edgeChanges ++ [EdgeRemove (edge_id edgePendingUpdate)],
                           nodesToUpdate ++ [edge_source edgePendingUpdate;
                                             edge_target edgePendingUpdate])
                  | None => ret (edgeChanges, nodesToUpdate)
                  end;
                dispatch edgeChanges;;
                updateNodeInternals nodesToUpdate
            | None => ret ()
            end;;
            update (set_pendingConnection None)
        | None =>
            update (set_addNodeCmdk true)
        end
    end.

(** The call of the resolver that [onConnectEnd] makes when the drag
    [pc] ends over the node [over]: the pending end fills its own side
    with its node and handle, the other side gets the hovered node
    and no handle. *)
Definition resolverCall (templates : Templates) (w : World)
    (pc : PendingConnection) (over : string) : option Connection :=
  getFirstValidConnection
    (if decide (handleType pc = Source) then nodeId pc else over)
    (if decide (handleType pc = Source) then Some (handleId pc) else None)
    (if decide (handleType pc = Target) then nodeId pc else over)
    (if decide (handleType pc = Target) then Some (handleId pc) else None)
    (nodes w) (edges w) templates (edgePendingUpdate w).

(** *** Runs of the callbacks

    One step of the editor is a call of one of the three callbacks
    (the world it leaves behind, whether it returned or threw), or a
    move of some actor outside the hook that leaves [$didUpdateEdge]
    as it is. *)
Inductive handlerStep : World → World → Prop :=
  | step_onConnectStart templates params w :
      handlerStep w (world_after (onConnectStart templates params w))
  | step_onConnect connection w :
      handlerStep w (world_after (onConnect connection w))
  | step_onConnectEnd templates w :
      handlerStep w (world_after (onConnectEnd templates w)).

Inductive step : World → World → Prop :=
  | step_handler w w' :
      handlerStep w w' → step w w'
  | step_outside w w' :
      didUpdateEdge w' = didUpdateEdge w → step w w'.

End Hook.

(** A call of [onConnectStart] together with what it sees of the
    outside when it runs: the nodes of the store and the templates the
    hook holds. *)
Record StartCall : Type := {
  call_nodes : list Node;
  call_templates : Templates;
  call_params : OnConnectStartParams;
}.

Definition set_nodes (v : list Node) (w : World) : World :=
  {| nodes := v; edges := edges w;
     pendingConnection := pendingConnection w;
     edgePendingUpdate := edgePendingUpdate w;
     mouseOverNode := mouseOverNode w;
     didUpdateEdge := didUpdateEdge w;
     addNodeCmdk := addNodeCmdk w;
     effects := effects w |}.

Definition set_edges (v : list Edge) (w : World) : World :=
  {| nodes := nodes w; edges := v;
     pendingConnection := pendingConnection w;
     edgePendingUpdate := edgePendingUpdate w;
     mouseOverNode := mouseOverNode w;
     didUpdateEdge := didUpdateEdge w;
     addNodeCmdk := addNodeCmdk w;
     effects := effects w |}.

(** A sequence of [onConnectStart] calls with no other callback in
    between.  A call that throws ends that call only. *)
Fixpoint onConnectStarts (calls : list StartCall) (w : World) : World :=
  match calls with
  | [] => w
  | c :: calls =>
      onConnectStarts calls
        (world_after
           (onConnectStart (call_templates c) (call_params c)
              (set_nodes (call_nodes c) w)))
  end.

(** The map [template[handleType === 'source' ? 'outputs' : 'inputs']]. *)
Definition fieldTemplatesOf (handleType : HandleType) (template : Template)
    : gmap string FieldTemplate :=
  match handleType with
  | Source => outputs template
  | Target => inputs template
  end.

(** The three lookups of [onConnectStart] in a row: the node by id, its
    template by type, the field template by handle id.  They find a
    value, or miss (the call returns), or end in the read of a property
    of [undefined] (the call throws). *)
Inductive LookupResult : Type :=
  | Found (fieldTemplate : Property FieldTemplate)
  | Missing
  | ReadsUndefined.

Definition lookupFieldTemplate (nodes : list Node) (templates : Templates)
    (nodeId handleId : string) (handleType : HandleType) : LookupResult :=
  match find (λ n, bool_decide (node_id n = nodeId)) nodes with
  | None => Missing
  | Some node =>
      match readProperty templates (node_data_type node) with
      | None => Missing
      | Some (Inherited _) => ReadsUndefined
      | Some (Own template) =>
          match readProperty (fieldTemplatesOf handleType template) handleId with
          | None => Missing
          | Some fieldTemplate => Found fieldTemplate
          end
      end
  end.

(** The record a call would track: its three arguments pass the
    assertion and its lookups find a value. *)
Definition tracked (c : StartCall) : option PendingConnection :=
  match call_params c with
  | {| params_nodeId := Some nodeId; params_handleId := Some handleId;
       params_handleType := Some handleType |} =>
      if truthy (Some nodeId) && truthy (Some handleId) then
        match lookupFieldTemplate (call_nodes c) (call_templates c)
                nodeId handleId handleType with
        | Found fieldTemplate =>
            Some {| nodeId := nodeId; handleId := handleId;
                    handleType := handleType; fieldTemplate := fieldTemplate |}
        | _ => None
        end
      else None
  | _ => None
  end.

(** The answer of the resolver in a call of [onConnectEnd]: [None] when
    the call does not get to the resolver (it bails out, nothing is
    pending, or no node with a truthy id is hovered), and [Some r] when
    it does and the resolver returns [r]. *)
Definition resolverAnswer (g : string → option string → string → option string →
                               list Node → list Edge → Templates → option Edge →
                               option Connection)
    (templates : Templates) (w : World) : option (option Connection) :=
  if bailOut w then None
  else
    match pendingConnection w with
    | None => None
    | Some pc =>
        match whenTruthy (mouseOverNode w) with
        | None => None
        | Some over => Some (resolverCall g templates w pc over)
        end
    end.

(** The type of [getFirstValidConnection]. *)
Abbreviation Resolver :=
  (string → option string → string → option string →
   list Node → list Edge → Templates → option Edge → option Connection).

(** Two worlds whose five cells agree; the store and the trace may
    differ. *)
Definition sameCells (w1 w2 : World) : Prop :=
  pendingConnection w1 = pendingConnection w2
  ∧ edgePendingUpdate w1 = edgePendingUpdate w2
  ∧ mouseOverNode w1 = mouseOverNode w2
  ∧ didUpdateEdge w1 = didUpdateEdge w2
  ∧ addNodeCmdk w1 = addNodeCmdk w2.

(** What [onConnectEnd] pushes when an edge update is pending: the
    remove of that edge and its two endpoints. *)
Definition removalOf (edgePendingUpdate : option Edge) : list EdgeChange :=
  match edgePendingUpdate with
  | Some e => [EdgeRemove (edge_id e)]
  | None => []
  end.

Definition endpointsOf (edgePendingUpdate : option Edge) : list string :=
  match edgePendingUpdate with
  | Some e => [edge_source e; edge_target e]
  | None => []
  end.

(** ** A small workflow used in the examples

    Three nodes [A], [B], [C] of type [add], whose template has the
    inputs [a] and [b] and the output [value]. *)
Module Example.

Definition integerField (name : string) : FieldTemplate :=
  {| field_name := name; field_type := "IntegerField" |}.

Definition addTemplate : Template :=
  {| inputs := <["a" := integerField "a"]> (<["b" := integerField "b"]> ∅);
     outputs := <["value" := integerField "value"]> ∅ |}.

Definition templates : Templates := <["add" := addTemplate]> ∅.

Definition workflow : list Node :=
  [ {| node_id := "A"; node_data_type := "add" |};
    {| node_id := "B"; node_data_type := "add" |};
    {| node_id := "C"; node_data_type := "add" |} ].

(** An edge whose id is made of its endpoints. *)
Definition connectionToEdge (c : Connection) : Edge :=
  {| edge_id := conn_source c +:+ default "" (conn_sourceHandle c) +:+ "-"
                +:+ conn_target c +:+ default "" (conn_targetHandle c);
     edge_source := conn_source c;
     edge_sourceHandle := conn_sourceHandle c;
     edge_target := conn_target c;
     edge_targetHandle := conn_targetHandle c |}.

(** A resolver that accepts every candidate between two different
    nodes, filling a missing handle with [value] or [a]. *)
Definition connectAny (source : string) (sourceHandle : option string)
    (target : string) (targetHandle : option string)
    (nodes : list Node) (edges : list Edge) (templates : Templates)
    (edgePendingUpdate : option Edge) : option Connection :=
  if decide (source = target) then None
  else Some {| conn_source := source;
               conn_sourceHandle := Some (default "value" sourceHandle);
               conn_target := target;
               conn_targetHandle := Some (default "a" targetHandle) |}.

(** A resolver that rejects every candidate. *)
Definition connectNone (source : string) (sourceHandle : option string)
    (target : string) (targetHandle : option string)
    (nodes : list Node) (edges : list Edge) (templates : Templates)
    (edgePendingUpdate : option Edge) : option Connection :=
  None.

(** The edge [A.value -> B.a]. *)
Definition edgeAB : Edge :=
  {| edge_id := "e1"; edge_source := "A"; edge_sourceHandle := Some "value";
     edge_target := "B"; edge_targetHandle := Some "a" |}.

(** The drag that started on the output [value] of [A]. *)
Definition fromA : PendingConnection :=
  {| nodeId := "A"; handleId := "value"; handleType := Source;
     fieldTemplate := Own (integerField "value") |}.

Definition idle : World :=
  {| nodes := workflow; edges := [edgeAB];
     pendingConnection := None; edgePendingUpdate := None;
     mouseOverNode := None; didUpdateEdge := false;
     addNodeCmdk := false; effects := [] |}.

Definition set_mouseOverNode (v : option string) (w : World) : World :=
  {| nodes := nodes w; edges := edges w;
     pendingConnection := pendingConnection w;
     edgePendingUpdate := edgePendingUpdate w;
     mouseOverNode := v;
     didUpdateEdge := didUpdateEdge w;
     addNodeCmdk := addNodeCmdk w;
     effects := effects w |}.

Definition set_edgePendingUpdate (v : option Edge) (w : World) : World :=
  {| nodes := nodes w; edges := edges w;
     pendingConnection := pendingConnection w;
     edgePendingUpdate := v;
     mouseOverNode := mouseOverNode w;
     didUpdateEdge := didUpdateEdge w;
     addNodeCmdk := addNodeCmdk w;
     effects := effects w |}.

(** Dragging from [A.value]. *)
Definition dragging : World := set_pendingConnection (Some fromA) idle.

Definition startParams (n h : string) (t : HandleType) : OnConnectStartParams :=
  {| params_nodeId := Some n; params_handleId := Some h;
     params_handleType := Some t |}.

Definition startCall (n h : string) (t : HandleType) : StartCall :=
  {| call_nodes := workflow; call_templates := templates;
     call_params := startParams n h t |}.

(** The drag has come to rest over [B], over [C] while [edgeAB] is
    being reconnected, and over nothing while it is. *)
Definition overB : World := set_mouseOverNode (Some "B") dragging.

Definition reconnecting : World :=
  set_mouseOverNode (Some "C") (set_edgePendingUpdate (Some edgeAB) dragging).

Definition detached : World := set_edgePendingUpdate (Some edgeAB) dragging.


(** The connection [A.value -> C.a]. *)
Definition connectionAC : Connection :=
  {| conn_source := "A"; conn_sourceHandle := Some "value";
     conn_target := "C"; conn_targetHandle := Some "a" |}.

(** The drag that started on the input [a] of [B], and its world with
    the pointer over [A]. *)
Definition toB : PendingConnection :=
  {| nodeId := "B"; handleId := "a"; handleType := Target;
     fieldTemplate := Own (integerField "a") |}.

Definition overA_toB : World :=
  set_mouseOverNode (Some "A") (set_pendingConnection (Some toB) idle).

(** The drag from [A.value] back over [A] itself. *)
Definition overA : World := set_mouseOverNode (Some "A") dragging.

(** Nothing dragged, the pointer over [B]. *)
Definition hoverB : World := set_mouseOverNode (Some "B") idle.

(** The workflow with one more node, [D], whose type is [constructor];
    no template has that type. *)
Definition withD : World :=
  set_nodes (workflow ++ [{| node_id := "D"; node_data_type := "constructor" |}])
    idle.

(** The connections [A.value -> B.a]. *)
Definition connectionAB : Connection :=
  {| conn_source := "A"; conn_sourceHandle := Some "value";
     conn_target := "B"; conn_targetHandle := Some "a" |}.

End Example.

(** * Properties *)

Local Ltac run :=
  unfold onConnectEnd, onConnect, onConnectStart, dispatch, updateNodeInternals,
    bind, get, update, ret, throw; simpl.

(** ** [onConnectStart] *)

(** One call, as a function of its arguments and of the three lookups. *)
Lemma onConnectStart_unfold (templates : Templates) (p : OnConnectStartParams) (w : World) :
  onConnectStart templates p w =
    match whenTruthy (params_nodeId p), whenTruthy (params_handleId p),
          params_handleType p with
    | Some n, Some h, Some t =>
        match lookupFieldTemplate (nodes w) templates n h t with
        | Found ft =>
            Returned ()
              (set_pendingConnection
                 (Some {| nodeId := n; handleId := h; handleType := t;
                          fieldTemplate := ft |}) w)
        | Missing => Returned () w
        | ReadsUndefined => Thrown readOfUndefined w
        end
    | _, _, _ => Thrown invalidStart w
    end.
Proof.
  run. unfold lookupFieldTemplate, fieldTemplatesOf.
  destruct (whenTruthy (params_nodeId p)) as [n|]; [|done].
  destruct (whenTruthy (params_handleId p)) as [h|]; [|done].
  destruct (params_handleType p) as [t|]; [|done].
  destruct (find _ (nodes w)) as [node|]; [|done].
  destruct (readProperty templates (node_data_type node)) as [[template|key]|];
    [|done|done].
  by destruct (readProperty _ h).
Qed.

(** A read of a key that is not inherited gives the own entry. *)
Lemma readProperty_own {V : Type} (object : gmap string V) (key : string) (v : V) :
  object !! key = Some v → readProperty object key = Some (Own v).
Proof. unfold readProperty. by intros ->. Qed.

Lemma readProperty_undefined {V : Type} (object : gmap string V) (key : string) :
  object !! key = None → key ∉ objectPrototype → readProperty object key = None.
Proof.
  unfold readProperty. intros -> Hkey. by rewrite bool_decide_eq_false_2.
Qed.

Lemma readProperty_inherited {V : Type} (object : gmap string V) (key : string) :
  object !! key = None → key ∈ objectPrototype →
  readProperty object key = Some (Inherited key).
Proof.
  unfold readProperty. intros -> Hkey. by rewrite bool_decide_eq_true_2.
Qed.

Lemma whenTruthy_Some (s : option string) (x : string) :
  whenTruthy s = Some x ↔ s = Some x ∧ x ≠ "".
Proof.
  unfold whenTruthy. destruct s as [[|a s]|]; simpl; split;
    try (intros [??]); try intros ?; simplify_eq; done.
Qed.

Lemma whenTruthy_None (s : option string) :
  whenTruthy s = None ↔ s = None ∨ s = Some "".
Proof.
  unfold whenTruthy. destruct s as [[|a s]|]; simpl; split;
    try (intros [?|?]); try intros ?; simplify_eq; auto.
Qed.

(** The cells other than [$pendingConnection] are out of reach of
    [onConnectStart]. *)
Lemma onConnectStart_frame (templates : Templates) (p : OnConnectStartParams) (w : World) :
  let w' := world_after (onConnectStart templates p w) in
  nodes w' = nodes w ∧ edges w' = edges w ∧
  edgePendingUpdate w' = edgePendingUpdate w ∧
  mouseOverNode w' = mouseOverNode w ∧
  didUpdateEdge w' = didUpdateEdge w ∧
  addNodeCmdk w' = addNodeCmdk w ∧
  effects w' = effects w.
Proof.
  rewrite onConnectStart_unfold.
  destruct (whenTruthy (params_nodeId p)); [|done].
  destruct (whenTruthy (params_handleId p)); [|done].
  destruct (params_handleType p); [|done].
  by destruct (lookupFieldTemplate _ _ _ _ _).
Qed.

(** What one call of a sequence does to [$pendingConnection]. *)
Lemma startCall_pending (c : StartCall) (w : World) :
  pendingConnection
    (world_after (onConnectStart (call_templates c) (call_params c)
                    (set_nodes (call_nodes c) w)))
  = match tracked c with
    | Some pc => Some pc
    | None => pendingConnection w
    end.
Proof.
  rewrite onConnectStart_unfold. unfold tracked. simpl.
  destruct (call_params c) as [[[|a n]|] [[|b h]|] [t|]]; simpl; try done.
  by destruct (lookupFieldTemplate _ _ _ _ _).
Qed.

Lemma onConnectStarts_app (pre post : list StartCall) (w : World) :
  onConnectStarts (pre ++ post) w = onConnectStarts post (onConnectStarts pre w).
Proof.
  revert w. induction pre as [|c pre IH]; intros w; simpl; [done|].
  by rewrite IH.
Qed.

Lemma onConnectStarts_untracked (calls : list StartCall) (w : World) :
  Forall (λ c, tracked c = None) calls →
  pendingConnection (onConnectStarts calls w) = pendingConnection w.
Proof.
  intros Hall. revert w.
  induction Hall as [|c calls Hc _ IH]; intros w; simpl; [done|].
  by rewrite IH, startCall_pending, Hc.
Qed.

(** [tracked] in words: the arguments are present and not empty, the
    node is found, the read of its type from the templates gives an own
    template, and the read of the handle id from that template's side
    gives a value. *)
Lemma tracked_Some (c : StartCall) (pc : PendingConnection) :
  tracked c = Some pc ↔
    ∃ node template,
      call_params c = {| params_nodeId := Some (nodeId pc);
                         params_handleId := Some (handleId pc);
                         params_handleType := Some (handleType pc) |}
      ∧ nodeId pc ≠ "" ∧ handleId pc ≠ ""
      ∧ find (λ x, bool_decide (node_id x = nodeId pc)) (call_nodes c) = Some node
      ∧ readProperty (call_templates c) (node_data_type node) = Some (Own template)
      ∧ readProperty (fieldTemplatesOf (handleType pc) template) (handleId pc)
        = Some (fieldTemplate pc).
Proof.
  unfold tracked, lookupFieldTemplate. split.
  - destruct (call_params c) as [[[|a n]|] [[|b h]|] [t|]]; simpl; try done.
    destruct (find _ (call_nodes c)) as [node|] eqn:Hfind; [|done].
    destruct (readProperty (call_templates c) (node_data_type node))
      as [[template|key]|] eqn:Ht; [|done|done].
    destruct (readProperty (fieldTemplatesOf t template) (String b h))
      as [ft|] eqn:Hft; [|done].
    intros [= <-]. simpl. by exists node, template.
  - intros (node & template & -> & Hn & Hh & Hfind & Ht & Hft).
    destruct pc as [[|a n] [|b h] t ft]; simpl in *; try done.
    by rewrite Hfind, Ht, Hft.
Qed.

(** C6.  After any sequence of [onConnectStart] calls with no other
    callback in between, [$pendingConnection] holds at most one record
    (it is a single nullable cell), and that record is the one
    [{nodeId, handleId, handleType, fieldTemplate}] of the most recent
    call whose node, template and field-template lookups all succeeded;
    when no call of the sequence got that far the cell is as it was
    before the sequence. *)
Theorem onConnectStarts_most_recent (calls : list StartCall) (w : World) :
  pendingConnection (onConnectStarts calls w)
  = match last (omap tracked calls) with
    | Some pc => Some pc
    | None => pendingConnection w
    end.
Proof.
  induction calls as [|c calls IH] using rev_ind; [done|].
  rewrite onConnectStarts_app, omap_app. simpl.
  rewrite startCall_pending.
  destruct (tracked c) as [pc|]; simpl.
  - by rewrite last_snoc.
  - by rewrite app_nil_r.
Qed.

(** C7, as amended.  [onConnectStart] throws its assertion error exactly
    when one of [nodeId], [handleId], [handleType] is absent or when
    [nodeId] or [handleId] is the empty string; and whenever it throws,
    this error or another, no cell has been written. *)
Theorem onConnectStart_throws_iff (templates : Templates)
    (p : OnConnectStartParams) (w : World) :
  ((∃ w', onConnectStart templates p w = Thrown invalidStart w') ↔
     params_nodeId p = None ∨ params_nodeId p = Some ""
     ∨ params_handleId p = None ∨ params_handleId p = Some ""
     ∨ params_handleType p = None)
  ∧ (threw (onConnectStart templates p w) = true →
     world_after (onConnectStart templates p w) = w).
Proof.
  rewrite onConnectStart_unfold.
  destruct p as [[[|a n]|] [[|b h]|] [t|]]; simpl;
    try (split; [split; [intros _; auto 6 | by exists w] | done]).
  destruct (lookupFieldTemplate _ _ _ _ _); simpl;
    (split; [split; [by intros [w' Hw'] | intros [?|[?|[?|[?|?]]]]; done] | done]).
Qed.

(** C8, as amended.  With all three arguments present and [nodeId] and
    [handleId] not empty, a call whose node does not exist, or whose
    node's type has no template, or whose template has no entry for
    [handleId] on the side named by [handleType], returns without error
    and leaves every cell as it was, provided the key that has no entry
    (the node's type, the handle id) is not the name of a property that
    plain objects inherit. *)
Theorem onConnectStart_miss_is_noop (templates : Templates)
    (p : OnConnectStartParams) (w : World) (n h : string) (t : HandleType) :
  params_nodeId p = Some n → params_handleId p = Some h →
  params_handleType p = Some t →
  n ≠ "" → h ≠ "" →
  (find (λ x, bool_decide (node_id x = n)) (nodes w) = None
   ∨ (∃ node, find (λ x, bool_decide (node_id x = n)) (nodes w) = Some node
              ∧ templates !! node_data_type node = None
              ∧ node_data_type node ∉ objectPrototype)
   ∨ (∃ node template,
        find (λ x, bool_decide (node_id x = n)) (nodes w) = Some node
        ∧ templates !! node_data_type node = Some template
        ∧ fieldTemplatesOf t template !! h = None
        ∧ h ∉ objectPrototype)) →
  onConnectStart templates p w = Returned () w
  ∧ pendingConnection (world_after (onConnectStart templates p w))
    = pendingConnection w.
Proof.
  intros Hn Hh Ht Hne Hhe Hmiss.
  rewrite onConnectStart_unfold, Hn, Hh, Ht.
  assert (whenTruthy (Some n) = Some n) as -> by by apply whenTruthy_Some.
  assert (whenTruthy (Some h) = Some h) as -> by by apply whenTruthy_Some.
  unfold lookupFieldTemplate.
  destruct Hmiss as [-> | [(node & -> & Hnone & Hkey)
                          | (node & template & -> & Htemplate & Hnone & Hkey)]].
  - done.
  - by rewrite (readProperty_undefined _ _ Hnone Hkey).
  - by rewrite (readProperty_own _ _ _ Htemplate),
      (readProperty_undefined _ _ Hnone Hkey).
Qed.

(** ** [onConnect] and [onConnectEnd] *)

Section HookProperties.

Variable getFirstValidConnection :
  string → option string → string → option string →
  list Node → list Edge → Templates → option Edge → option Connection.
Variable connectionToEdge : Connection → Edge.

Local Abbreviation onConnect := (onConnect connectionToEdge).
Local Abbreviation onConnectEnd := (onConnectEnd getFirstValidConnection connectionToEdge).
Local Abbreviation step := (step getFirstValidConnection connectionToEdge).
Local Abbreviation resolverCall := (resolverCall getFirstValidConnection).

(** When the test of the first [if] fails with an edge update pending,
    the hovered node id is truthy. *)
Lemma bailOut_false_over (w : World) (E : Edge) (over : string) :
  bailOut w = false → edgePendingUpdate w = Some E →
  mouseOverNode w = Some over →
  whenTruthy (Some over) = Some over.
Proof.
  unfold bailOut. intros Hb HE Hover. rewrite HE, Hover in Hb.
  by destruct over.
Qed.

(** C1.  [onConnectEnd] with a pending connection, a hovered node, the
    bail-out test false, an edge [E] pending update and a resolver
    that returns a connection: one [edgesChanged] batch is dispatched,
    made of the add of the new edge followed by the remove of [E.id];
    [$didUpdateEdge] becomes true; one refresh request follows, for
    the new edge's source and target and [E]'s source and target. *)
Theorem onConnectEnd_reconnect (templates : Templates) (w : World)
    (pc : PendingConnection) (over : string) (E : Edge) (c : Connection) :
  pendingConnection w = Some pc →
  mouseOverNode w = Some over →
  bailOut w = false →
  edgePendingUpdate w = Some E →
  resolverCall templates w pc over = Some c →
  ∃ w' ids,
    onConnectEnd templates w = Returned () w'
    ∧ effects w' =
        effects w ++
          [DispatchEdgesChanged
             [EdgeAdd (connectionToEdge c); EdgeRemove (edge_id E)];
           UpdateNodeInternals ids]
    ∧ ids = [edge_source (connectionToEdge c); edge_target (connectionToEdge c);
             edge_source E; edge_target E]
    ∧ list_to_set ids =@{gset string}
        {[ edge_source (connectionToEdge c); edge_target (connectionToEdge c);
           edge_source E; edge_target E ]}
    ∧ didUpdateEdge w' = true.
Proof.
  intros Hpc Hover Hbail HE Hres.
  pose proof (bailOut_false_over w E over Hbail HE Hover) as Htruthy.
  unfold resolverCall in Hres. unfold bailOut in Hbail.
  eexists _, _. split; [|split; [|split; [reflexivity|split]]].
  - run. rewrite Hbail, Hpc, Hover, Htruthy. simpl.
    rewrite Hres. rewrite HE. simpl. reflexivity.
  - simpl. by rewrite <- app_assoc.
  - apply set_eq. intros x. set_unfold. tauto.
  - done.
Qed.

(** C2.  Whenever an edge update is pending and no node is hovered, or
    [$didUpdateEdge] is true, [onConnectEnd] returns with
    [$pendingConnection] null, nothing dispatched, no refresh requested
    and every other cell as it was, whatever [$pendingConnection] held
    and whatever the store, the templates and the resolver are: the
    test comes before every other branch. *)
Theorem onConnectEnd_bails (templates : Templates) (w : World) :
  (edgePendingUpdate w ≠ None ∧ mouseOverNode w = None)
  ∨ didUpdateEdge w = true →
  ∃ w',
    onConnectEnd templates w = Returned () w'
    ∧ pendingConnection w' = None
    ∧ effects w' = effects w
    ∧ nodes w' = nodes w ∧ edges w' = edges w
    ∧ edgePendingUpdate w' = edgePendingUpdate w
    ∧ mouseOverNode w' = mouseOverNode w
    ∧ didUpdateEdge w' = didUpdateEdge w
    ∧ addNodeCmdk w' = addNodeCmdk w.
Proof.
  intros Hcond.
  assert (onConnectEnd templates w = Returned () (set_pendingConnection None w))
    as Hrun.
  { run. destruct Hcond as [[HE ->] | ->].
    - by destruct (edgePendingUpdate w).
    - by rewrite orb_true_r. }
  eexists. split; [exact Hrun|]. done.
Qed.

(** C3.  [onConnectEnd] with a pending connection, the bail-out test
    false and no hovered node returns with [$addNodeCmdk] true (the
    add-node popover is asked to open) and with everything else as it
    was: [$pendingConnection] still holds its record, nothing is
    dispatched and no refresh is requested. *)
Theorem onConnectEnd_empty_canvas (templates : Templates) (w : World)
    (pc : PendingConnection) :
  pendingConnection w = Some pc →
  bailOut w = false →
  mouseOverNode w = None →
  ∃ w',
    onConnectEnd templates w = Returned () w'
    ∧ addNodeCmdk w' = true
    ∧ pendingConnection w' = Some pc
    ∧ effects w' = effects w
    ∧ nodes w' = nodes w ∧ edges w' = edges w
    ∧ edgePendingUpdate w' = edgePendingUpdate w
    ∧ mouseOverNode w' = mouseOverNode w
    ∧ didUpdateEdge w' = didUpdateEdge w.
Proof.
  intros Hpc Hbail Hover. unfold bailOut in Hbail.
  assert (onConnectEnd templates w = Returned () (set_addNodeCmdk true w))
    as Hrun.
  { run. by rewrite Hbail, Hpc, Hover. }
  eexists. split; [exact Hrun|]. simpl. by rewrite Hpc.
Qed.

(** C4.  For every connection and every world, [onConnect] returns;
    what it did to the outside is exactly one dispatch of the batch
    holding the single add of the edge built from its argument,
    followed by one refresh request for that edge's source and target;
    [$pendingConnection] is null afterwards and no other cell has
    changed.  The resolver is no argument of [onConnect] and nothing of
    the world enters what is dispatched: no validation, no state read. *)
Theorem onConnect_adds_edge (connection : Connection) (w : World) :
  ∃ w',
    onConnect connection w = Returned () w'
    ∧ effects w' =
        effects w ++
          [DispatchEdgesChanged [EdgeAdd (connectionToEdge connection)];
           UpdateNodeInternals
             [edge_source (connectionToEdge connection);
              edge_target (connectionToEdge connection)]]
    ∧ pendingConnection w' = None
    ∧ edgePendingUpdate w' = edgePendingUpdate w
    ∧ mouseOverNode w' = mouseOverNode w
    ∧ didUpdateEdge w' = didUpdateEdge w
    ∧ addNodeCmdk w' = addNodeCmdk w.
Proof.
  eexists. split; [reflexivity|]. simpl.
  by rewrite <- app_assoc.
Qed.

(** C5.  [onConnectEnd] with a pending connection, the bail-out test
    false, a hovered node, and a resolver that returns nothing when the
    call consults it: the call returns with nothing dispatched, no
    refresh requested and [$pendingConnection] null. *)
Theorem onConnectEnd_rejected (templates : Templates) (w : World)
    (pc : PendingConnection) (over : string) :
  pendingConnection w = Some pc →
  bailOut w = false →
  mouseOverNode w = Some over →
  resolverAnswer getFirstValidConnection templates w = Some None →
  ∃ w',
    onConnectEnd templates w = Returned () w'
    ∧ pendingConnection w' = None
    ∧ effects w' = effects w
    ∧ didUpdateEdge w' = didUpdateEdge w
    ∧ addNodeCmdk w' = addNodeCmdk w.
Proof.
  intros Hpc Hbail Hover Hres.
  unfold resolverAnswer in Hres. rewrite Hbail, Hpc, Hover in Hres.
  assert (onConnectEnd templates w = Returned () (set_pendingConnection None w))
    as Hrun.
  { run. unfold bailOut in Hbail. rewrite Hbail, Hpc, Hover.
    destruct (whenTruthy (Some over)) as [over'|]; [|done].
    injection Hres as Hres. unfold resolverCall in Hres. simpl.
    by rewrite Hres. }
  eexists. split; [exact Hrun|]. done.
Qed.

(** C10.  [onConnectEnd] with the bail-out test false and no pending
    connection returns with every cell as it was; in particular
    [$addNodeCmdk] is not set, hovered node or not. *)
Theorem onConnectEnd_idle (templates : Templates) (w : World) :
  bailOut w = false →
  pendingConnection w = None →
  onConnectEnd templates w = Returned () w.
Proof.
  intros Hbail Hpc. unfold bailOut in Hbail. run.
  by rewrite Hbail, Hpc.
Qed.

(** [onConnect] leaves [$didUpdateEdge] alone. *)
Lemma onConnect_didUpdateEdge (connection : Connection) (w : World) :
  didUpdateEdge (world_after (onConnect connection w)) = didUpdateEdge w.
Proof. reflexivity. Qed.

(** Once the flag is true, [onConnectEnd] takes its first branch. *)
Lemma onConnectEnd_after_update (templates : Templates) (w : World) :
  didUpdateEdge w = true →
  onConnectEnd templates w = Returned () (set_pendingConnection None w).
Proof.
  intros Hflag. run. by rewrite Hflag, orb_true_r.
Qed.

Lemma handlerStep_keeps_flag (w w' : World) :
  handlerStep getFirstValidConnection connectionToEdge w w' →
  didUpdateEdge w = true → didUpdateEdge w' = true.
Proof.
  intros Hstep Hflag. destruct Hstep as [templates params w|connection w|templates w].
  - by rewrite (proj1 (proj2 (proj2 (proj2 (proj2
      (onConnectStart_frame templates params w)))))).
  - by rewrite onConnect_didUpdateEdge.
  - by rewrite onConnectEnd_after_update.
Qed.

Lemma step_keeps_flag (w w' : World) :
  step w w' → didUpdateEdge w = true → didUpdateEdge w' = true.
Proof.
  intros [v v' Hh | v v' Heq] Hflag.
  - by eapply handlerStep_keeps_flag.
  - by rewrite Heq.
Qed.

(** C9.  No callback ever takes [$didUpdateEdge] from true to false
    ([onConnectStart] and [onConnect] do not write it, [onConnectEnd]
    only writes true).  So from a world where the flag is true, after
    any run of callbacks, interleaved with any moves of outside actors
    that leave the flag alone, the flag is still true and the next
    [onConnectEnd] takes the bail-out branch: it clears
    [$pendingConnection], dispatches nothing, requests no refresh and
    does not open the add-node popover. *)
Theorem didUpdateEdge_latches (w w' : World) :
  didUpdateEdge w = true →
  rtc step w w' →
  didUpdateEdge w' = true
  ∧ ∀ templates,
      onConnectEnd templates w' = Returned () (set_pendingConnection None w')
      ∧ effects (set_pendingConnection None w') = effects w'
      ∧ addNodeCmdk (set_pendingConnection None w') = addNodeCmdk w'
      ∧ pendingConnection (world_after (onConnectEnd templates w')) = None.
Proof.
  intros Hflag Hrun.
  assert (didUpdateEdge w' = true) as Hflag'.
  { induction Hrun as [|u v x Hstep _ IH]; [done|].
    apply IH. by eapply step_keeps_flag. }
  split; [done|]. intros templates.
  by rewrite onConnectEnd_after_update.
Qed.

End HookProperties.

(** ** Further properties of the three callbacks *)

(** [onConnectEnd] branch by branch: it always returns, and the world
    it returns is decided by the first test, the pending connection, the
    hovered node and one call of the resolver. *)
Lemma onConnectEnd_unfold (g : Resolver) (cte : Connection → Edge)
    (templates : Templates) (w : World) :
  onConnectEnd g cte templates w =
    Returned ()
      (if bailOut w then set_pendingConnection None w
       else
         match pendingConnection w with
         | None => w
         | Some pc =>
             match whenTruthy (mouseOverNode w) with
             | None => set_addNodeCmdk true w
             | Some over =>
                 match resolverCall g templates w pc over with
                 | None => set_pendingConnection None w
                 | Some c =>
                     set_pendingConnection None
                       (emit (UpdateNodeInternals
                                (edge_source (cte c) :: edge_target (cte c)
                                 :: endpointsOf (edgePendingUpdate w)))
                          (emit (DispatchEdgesChanged
                                   (EdgeAdd (cte c) :: removalOf (edgePendingUpdate w)))
                             (if present (edgePendingUpdate w)
                              then set_didUpdateEdge true w else w)))
                 end
             end
         end).
Proof.
  run. unfold bailOut, resolverCall.
  destruct (_ || _); [done|].
  destruct (pendingConnection w) as [pc|]; [|done].
  destruct (whenTruthy (mouseOverNode w)) as [over|]; [|done]. simpl.
  destruct (g _ _ _ _ _ _ _ _) as [c|]; [|done].
  by destruct (edgePendingUpdate w).
Qed.

(** [resolverAnswer] is [None] exactly when the outcome of the call is
    the same for every resolver: the call gets to the resolver exactly
    when its outcome depends on it. *)
Lemma resolverAnswer_None_iff (g : Resolver) (cte : Connection → Edge)
    (templates : Templates) (w : World) :
  resolverAnswer g templates w = None
  ↔ ∀ g1 g2 : Resolver,
      onConnectEnd g1 cte templates w = onConnectEnd g2 cte templates w.
Proof.
  unfold resolverAnswer. split.
  - intros Hnone g1 g2. rewrite !onConnectEnd_unfold.
    destruct (bailOut w); [done|].
    destruct (pendingConnection w) as [pc|]; [|done].
    by destruct (whenTruthy (mouseOverNode w)).
  - intros Hsame.
    destruct (bailOut w) eqn:Hbail; [done|].
    destruct (pendingConnection w) as [pc|] eqn:Hpc; [|done].
    destruct (whenTruthy (mouseOverNode w)) as [over|] eqn:Hover; [|done].
    exfalso.
    pose (c0 := {| conn_source := ""; conn_sourceHandle := None;
                   conn_target := ""; conn_targetHandle := None |}).
    specialize (Hsame (λ _ _ _ _ _ _ _ _, None) (λ _ _ _ _ _ _ _ _, Some c0)).
    rewrite !onConnectEnd_unfold, Hbail, Hpc, Hover in Hsame.
    unfold resolverCall in Hsame.
    apply (f_equal world_after), (f_equal effects), (f_equal length) in Hsame.
    simpl in Hsame. rewrite !length_app in Hsame.
    destruct (present (edgePendingUpdate w)); simpl in Hsame; lia.
Qed.

Lemma whenTruthy_truthy (s : option string) :
  truthy s = present (whenTruthy s).
Proof. by destruct s as [[|a s]|]. Qed.

Lemma set_pendingConnection_same (w : World) :
  set_pendingConnection (pendingConnection w) w = w.
Proof. by destruct w. Qed.

Lemma set_addNodeCmdk_same (w : World) :
  set_addNodeCmdk (addNodeCmdk w) w = w.
Proof. by destruct w. Qed.

(** With no pending connection [onConnectEnd] changes nothing, bail-out
    or not. *)
Lemma onConnectEnd_pending_None (g : Resolver) (cte : Connection → Edge)
    (templates : Templates) (w : World) :
  pendingConnection w = None →
  onConnectEnd g cte templates w = Returned () w.
Proof.
  intros Hpc. rewrite onConnectEnd_unfold, Hpc.
  destruct (bailOut w); [|done].
  by rewrite <- Hpc, set_pendingConnection_same.
Qed.

(** X1.  A call of [onConnectStart] whose three arguments are present
    and not empty, whose node is in the store, whose node type has a
    template and whose handle is a field of that template on the side
    of the handle type returns with [$pendingConnection] holding
    exactly [{nodeId, handleId, handleType, fieldTemplate}], whatever
    was pending before; no other cell is written and nothing is
    dispatched. *)
Theorem onConnectStart_tracks (templates : Templates) (p : OnConnectStartParams)
    (w : World) (n h : string) (t : HandleType)
    (node : Node) (template : Template) (ft : FieldTemplate) :
  params_nodeId p = Some n → params_handleId p = Some h →
  params_handleType p = Some t →
  n ≠ "" → h ≠ "" →
  find (λ x, bool_decide (node_id x = n)) (nodes w) = Some node →
  templates !! node_data_type node = Some template →
  fieldTemplatesOf t template !! h = Some ft →
  ∃ w',
    onConnectStart templates p w = Returned () w'
    ∧ pendingConnection w' =
        Some {| nodeId := n; handleId := h; handleType := t;
                fieldTemplate := Own ft |}
    ∧ effects w' = effects w
    ∧ nodes w' = nodes w ∧ edges w' = edges w
    ∧ edgePendingUpdate w' = edgePendingUpdate w
    ∧ mouseOverNode w' = mouseOverNode w
    ∧ didUpdateEdge w' = didUpdateEdge w
    ∧ addNodeCmdk w' = addNodeCmdk w.
Proof.
  intros Hn Hh Ht Hne Hhe Hfind Htemplate Hft.
  rewrite onConnectStart_unfold, Hn, Hh, Ht.
  assert (whenTruthy (Some n) = Some n) as -> by by apply whenTruthy_Some.
  assert (whenTruthy (Some h) = Some h) as -> by by apply whenTruthy_Some.
  unfold lookupFieldTemplate.
  rewrite Hfind, (readProperty_own _ _ _ Htemplate), (readProperty_own _ _ _ Hft).
  eexists. split; [reflexivity|]. done.
Qed.

(** X2.  Whatever its arguments, and whether it returns or throws,
    [onConnectStart] either leaves the world exactly as it was or
    changes [$pendingConnection] alone, to a record that carries the
    call's own three arguments and a field template the three lookups
    found.  In particular it never clears a pending connection. *)
Theorem onConnectStart_keeps_or_replaces (templates : Templates)
    (p : OnConnectStartParams) (w : World) :
  world_after (onConnectStart templates p w) = w
  ∨ ∃ pc,
      world_after (onConnectStart templates p w)
        = set_pendingConnection (Some pc) w
      ∧ params_nodeId p = Some (nodeId pc)
      ∧ params_handleId p = Some (handleId pc)
      ∧ params_handleType p = Some (handleType pc)
      ∧ lookupFieldTemplate (nodes w) templates
          (nodeId pc) (handleId pc) (handleType pc) = Found (fieldTemplate pc).
Proof.
  rewrite onConnectStart_unfold.
  destruct (whenTruthy (params_nodeId p)) as [n|] eqn:Hn; [|by left].
  destruct (whenTruthy (params_handleId p)) as [h|] eqn:Hh; [|by left].
  destruct (params_handleType p) as [t|]; [|by left].
  destruct (lookupFieldTemplate (nodes w) templates n h t) as [ft| |] eqn:Hft;
    [|by left|by left].
  right. eexists. split; [reflexivity|]. simpl.
  apply whenTruthy_Some in Hn as [-> _]. apply whenTruthy_Some in Hh as [-> _].
  done.
Qed.

(** X16.  A handle id that names a property every plain object
    inherits: with the node found and its template present, a handle id
    that is no field of the template's side but is such a name (for
    instance [constructor]) is not a miss.  The read gives the
    inherited value, which is truthy, so the call returns with
    [$pendingConnection] holding a record whose [fieldTemplate] is that
    inherited value and no field template. *)
Theorem onConnectStart_tracks_inherited (templates : Templates)
    (p : OnConnectStartParams) (w : World) (n h : string) (t : HandleType)
    (node : Node) (template : Template) :
  params_nodeId p = Some n → params_handleId p = Some h →
  params_handleType p = Some t →
  n ≠ "" →
  find (λ x, bool_decide (node_id x = n)) (nodes w) = Some node →
  templates !! node_data_type node = Some template →
  fieldTemplatesOf t template !! h = None →
  h ∈ objectPrototype →
  ∃ w',
    onConnectStart templates p w = Returned () w'
    ∧ pendingConnection w' =
        Some {| nodeId := n; handleId := h; handleType := t;
                fieldTemplate := Inherited h |}
    ∧ effects w' = effects w.
Proof.
  intros Hn Hh Ht Hne Hfind Htemplate Hnone Hkey.
  assert (h ≠ "") as Hhe.
  { intros ->. revert Hkey.
    apply (bool_decide_eq_false_1 ("" ∈ objectPrototype)). reflexivity. }
  rewrite onConnectStart_unfold, Hn, Hh, Ht.
  assert (whenTruthy (Some n) = Some n) as -> by by apply whenTruthy_Some.
  assert (whenTruthy (Some h) = Some h) as -> by by apply whenTruthy_Some.
  unfold lookupFieldTemplate.
  rewrite Hfind, (readProperty_own _ _ _ Htemplate),
    (readProperty_inherited _ _ Hnone Hkey).
  eexists. split; [reflexivity|]. done.
Qed.

(** X17.  A node type that names a property every plain object
    inherits: with the node found and no template of its own for such
    a type (for instance [constructor]), the read of the templates
    gives the inherited value, which has neither [outputs] nor
    [inputs]; the read of the handle id from [undefined] throws a
    [TypeError], not the assertion error, and no cell has been
    written. *)
Theorem onConnectStart_inherited_type_throws (templates : Templates)
    (p : OnConnectStartParams) (w : World) (n h : string) (t : HandleType)
    (node : Node) :
  params_nodeId p = Some n → params_handleId p = Some h →
  params_handleType p = Some t →
  n ≠ "" → h ≠ "" →
  find (λ x, bool_decide (node_id x = n)) (nodes w) = Some node →
  templates !! node_data_type node = None →
  node_data_type node ∈ objectPrototype →
  onConnectStart templates p w = Thrown readOfUndefined w
  ∧ readOfUndefined ≠ invalidStart.
Proof.
  intros Hn Hh Ht Hne Hhe Hfind Hnone Hkey.
  rewrite onConnectStart_unfold, Hn, Hh, Ht.
  assert (whenTruthy (Some n) = Some n) as -> by by apply whenTruthy_Some.
  assert (whenTruthy (Some h) = Some h) as -> by by apply whenTruthy_Some.
  unfold lookupFieldTemplate.
  by rewrite Hfind, (readProperty_inherited _ _ Hnone Hkey).
Qed.

(** X3.  A drag that started on a source handle and ends over a node,
    with no edge update pending and [$didUpdateEdge] false: the
    resolver is asked for [(pending node, pending handle, hovered node,
    null)]; when it answers with a connection, one batch with the
    single add of the new edge is dispatched, one refresh for its two
    ends is requested, [$pendingConnection] is cleared and
    [$didUpdateEdge] stays false. *)
Theorem onConnectEnd_connects_from_source (g : Resolver) (cte : Connection → Edge)
    (templates : Templates) (w : World)
    (pc : PendingConnection) (over : string) (c : Connection) :
  pendingConnection w = Some pc →
  handleType pc = Source →
  mouseOverNode w = Some over → over ≠ "" →
  edgePendingUpdate w = None →
  didUpdateEdge w = false →
  g (nodeId pc) (Some (handleId pc)) over None
    (nodes w) (edges w) templates None = Some c →
  ∃ w',
    onConnectEnd g cte templates w = Returned () w'
    ∧ effects w' =
        effects w ++
          [DispatchEdgesChanged [EdgeAdd (cte c)];
           UpdateNodeInternals [edge_source (cte c); edge_target (cte c)]]
    ∧ pendingConnection w' = None
    ∧ didUpdateEdge w' = false
    ∧ addNodeCmdk w' = addNodeCmdk w.
Proof.
  intros Hpc Ht Hover Hne HE Hflag Hres.
  rewrite onConnectEnd_unfold. unfold bailOut, resolverCall.
  rewrite Hpc, Hover, HE, Hflag, Ht. simpl.
  assert (whenTruthy (Some over) = Some over) as -> by by apply whenTruthy_Some.
  rewrite Hres. eexists. split; [reflexivity|]. simpl.
  by rewrite <- app_assoc.
Qed.

(** X4.  The same for a drag that started on a target handle: the
    resolver is asked for [(hovered node, null, pending node, pending
    handle)]. *)
Theorem onConnectEnd_connects_to_target (g : Resolver) (cte : Connection → Edge)
    (templates : Templates) (w : World)
    (pc : PendingConnection) (over : string) (c : Connection) :
  pendingConnection w = Some pc →
  handleType pc = Target →
  mouseOverNode w = Some over → over ≠ "" →
  edgePendingUpdate w = None →
  didUpdateEdge w = false →
  g over None (nodeId pc) (Some (handleId pc))
    (nodes w) (edges w) templates None = Some c →
  ∃ w',
    onConnectEnd g cte templates w = Returned () w'
    ∧ effects w' =
        effects w ++
          [DispatchEdgesChanged [EdgeAdd (cte c)];
           UpdateNodeInternals [edge_source (cte c); edge_target (cte c)]]
    ∧ pendingConnection w' = None
    ∧ didUpdateEdge w' = false
    ∧ addNodeCmdk w' = addNodeCmdk w.
Proof.
  intros Hpc Ht Hover Hne HE Hflag Hres.
  rewrite onConnectEnd_unfold. unfold bailOut, resolverCall.
  rewrite Hpc, Hover, HE, Hflag, Ht. simpl.
  assert (whenTruthy (Some over) = Some over) as -> by by apply whenTruthy_Some.
  rewrite Hres. eexists. split; [reflexivity|]. simpl.
  by rewrite <- app_assoc.
Qed.

(** X5.  With no pending connection, [onConnectEnd] returns the world
    unchanged in every case: also when the bail-out test holds, where
    the write of [null] to [$pendingConnection] changes nothing, and
    whatever the hovered node, the store and the resolver are. *)
Theorem onConnectEnd_without_pending (g : Resolver) (cte : Connection → Edge)
    (templates : Templates) (w : World) :
  pendingConnection w = None →
  onConnectEnd g cte templates w = Returned () w
  ∧ effects (world_after (onConnectEnd g cte templates w)) = effects w.
Proof.
  intros Hpc. by rewrite onConnectEnd_pending_None.
Qed.

(** X6.  [onConnect] followed by [onConnectEnd] for the same gesture:
    if the five cells are as [onConnect] left them, then whatever the
    dispatch did to the store, the second callback returns the world
    unchanged, so the edge is added once. *)
Theorem onConnectEnd_after_onConnect (g : Resolver) (cte cte' : Connection → Edge)
    (templates : Templates) (connection : Connection) (w w2 : World) :
  sameCells (world_after (onConnect cte' connection w)) w2 →
  onConnectEnd g cte templates w2 = Returned () w2.
Proof.
  intros (Hpc & _). apply onConnectEnd_pending_None. by rewrite <- Hpc.
Qed.

(** X7.  [onConnectEnd] fired twice: if the five cells are as the first
    call left them, then whatever became of the store, the templates
    and the resolver in between, the second call returns the world
    unchanged: nothing is dispatched or refreshed a second time. *)
Theorem onConnectEnd_twice (g g2 : Resolver) (cte cte2 : Connection → Edge)
    (templates templates2 : Templates) (w w2 : World) :
  sameCells (world_after (onConnectEnd g cte templates w)) w2 →
  onConnectEnd g2 cte2 templates2 w2 = Returned () w2.
Proof.
  rewrite onConnectEnd_unfold. simpl.
  intros (Hpc & HE & Hover & Hflag & Hcmdk).
  destruct (bailOut w) eqn:Hbail;
    [by apply onConnectEnd_pending_None|].
  destruct (pendingConnection w) as [pc|] eqn:Hpcw;
    [|apply onConnectEnd_pending_None; congruence].
  destruct (whenTruthy (mouseOverNode w)) as [over|] eqn:Hw.
  { apply onConnectEnd_pending_None.
    by destruct (resolverCall g templates w pc over). }
  simpl in *. rewrite onConnectEnd_unfold.
  unfold bailOut in *. rewrite <- HE, <- Hover, <- Hflag, Hbail, <- Hpc, Hpcw, Hw.
  by rewrite Hcmdk, set_addNodeCmdk_same.
Qed.

(** X8.  What [onConnectEnd] does to the outside, in every case:
    either nothing, or one dispatch followed by one refresh.  The
    second happens only with a pending connection over a node with a
    truthy id, the bail-out test false and a resolver that answered;
    the batch then starts with the add of the new edge, followed by the
    remove of the edge pending update when there is one, and of no
    other edge; the refresh names the new edge's two ends, followed by
    the two ends of the removed edge. *)
Theorem onConnectEnd_effects_shape (g : Resolver) (cte : Connection → Edge)
    (templates : Templates) (w : World) :
  effects (world_after (onConnectEnd g cte templates w)) = effects w
  ∨ ∃ pc over c,
      pendingConnection w = Some pc
      ∧ mouseOverNode w = Some over ∧ over ≠ ""
      ∧ bailOut w = false
      ∧ resolverCall g templates w pc over = Some c
      ∧ effects (world_after (onConnectEnd g cte templates w))
        = effects w ++
            [DispatchEdgesChanged
               (EdgeAdd (cte c) :: removalOf (edgePendingUpdate w));
             UpdateNodeInternals
               (edge_source (cte c) :: edge_target (cte c)
                :: endpointsOf (edgePendingUpdate w))].
Proof.
  rewrite onConnectEnd_unfold. simpl.
  destruct (bailOut w) eqn:Hbail; [by left|].
  destruct (pendingConnection w) as [pc|] eqn:Hpc; [|by left].
  destruct (whenTruthy (mouseOverNode w)) as [over|] eqn:Hover; [|by left].
  destruct (resolverCall g templates w pc over) as [c|] eqn:Hres; [|by left].
  right. exists pc, over, c.
  apply whenTruthy_Some in Hover as [Hover Hne].
  repeat split; try done.
  simpl. rewrite <- app_assoc. simpl.
  by destruct (edgePendingUpdate w).
Qed.

(** X9.  [$didUpdateEdge] is true after [onConnectEnd] exactly when it
    was true before or the call dispatched a batch that removes the
    edge pending update: the flag is raised by a committed reconnection
    and by nothing else. *)
Theorem onConnectEnd_flag_iff_removal (g : Resolver) (cte : Connection → Edge)
    (templates : Templates) (w : World) :
  didUpdateEdge (world_after (onConnectEnd g cte templates w)) = true
  ↔ didUpdateEdge w = true
    ∨ ∃ E c ids,
        edgePendingUpdate w = Some E
        ∧ effects (world_after (onConnectEnd g cte templates w))
          = effects w ++
              [DispatchEdgesChanged [EdgeAdd (cte c); EdgeRemove (edge_id E)];
               UpdateNodeInternals ids].
Proof.
  rewrite onConnectEnd_unfold. simpl.
  assert (∀ (l : list Effect) a b, l = l ++ [a; b] → False) as Hnil.
  { intros l a b Hl. rewrite <- (app_nil_r l) in Hl at 1.
    by apply app_inv_head in Hl. }
  unfold bailOut.
  destruct (didUpdateEdge w) eqn:Hflag.
  { rewrite orb_true_r. simpl. split; [by left | by rewrite Hflag]. }
  rewrite orb_false_r.
  destruct (present (edgePendingUpdate w) && negb (truthy (mouseOverNode w)))
    eqn:Hoff; simpl.
  { rewrite Hflag. split; [done|].
    intros [? | (E & c & ids & _ & Heff)]; [done|]. by apply Hnil in Heff. }
  destruct (pendingConnection w) as [pc|].
  2:{ rewrite Hflag. split; [done|].
      intros [? | (E & c & ids & _ & Heff)]; [done|]. by apply Hnil in Heff. }
  destruct (whenTruthy (mouseOverNode w)) as [over|]; simpl.
  2:{ rewrite Hflag. split; [done|].
      intros [? | (E & c & ids & _ & Heff)]; [done|]. by apply Hnil in Heff. }
  destruct (resolverCall g templates w pc over) as [c|]; simpl.
  2:{ rewrite Hflag. split; [done|].
      intros [? | (E & c & ids & _ & Heff)]; [done|]. by apply Hnil in Heff. }
  destruct (edgePendingUpdate w) as [E|]; simpl.
  - split; [|done]. intros _. right. exists E, c. eexists. split; [done|].
    by rewrite <- app_assoc.
  - rewrite Hflag. split; [done|].
    intros [? | (E & c' & ids & ? & _)]; done.
Qed.

(** X10.  No callback writes [$edgePendingUpdate] or [$mouseOverNode],
    and none closes the add-node popover: across a call of any of the
    three, returning or throwing, the first two cells are unchanged and
    [$addNodeCmdk], once true, is still true. *)
Theorem handlers_leave_renderer_cells (g : Resolver) (cte : Connection → Edge)
    (w w' : World) :
  handlerStep g cte w w' →
  edgePendingUpdate w' = edgePendingUpdate w
  ∧ mouseOverNode w' = mouseOverNode w
  ∧ (addNodeCmdk w = true → addNodeCmdk w' = true).
Proof.
  intros [templates params v | connection v | templates v].
  - destruct (onConnectStart_frame templates params v)
      as (_ & _ & HE & Hover & _ & Hcmdk & _).
    simpl in *. by rewrite HE, Hover, Hcmdk.
  - done.
  - rewrite onConnectEnd_unfold. simpl.
    destruct (bailOut v); [done|].
    destruct (pendingConnection v) as [pc|]; [|done].
    destruct (whenTruthy (mouseOverNode v)) as [over|]; [|done].
    destruct (resolverCall g templates v pc over); [|done].
    by destruct (present (edgePendingUpdate v)).
Qed.

(** X11.  The add-node popover after [onConnectEnd]: [$addNodeCmdk] is
    true exactly when it was already true, or when the bail-out test
    failed with a connection pending and a hovered node id that is
    [null] or the empty string. *)
Theorem onConnectEnd_popover (g : Resolver) (cte : Connection → Edge)
    (templates : Templates) (w : World) :
  addNodeCmdk (world_after (onConnectEnd g cte templates w))
  = addNodeCmdk w
    || (negb (bailOut w) && present (pendingConnection w)
        && negb (truthy (mouseOverNode w))).
Proof.
  rewrite onConnectEnd_unfold, whenTruthy_truthy. simpl.
  destruct (bailOut w); simpl; [by rewrite orb_false_r|].
  destruct (pendingConnection w) as [pc|]; simpl; [|by rewrite orb_false_r].
  destruct (whenTruthy (mouseOverNode w)) as [over|]; simpl;
    [|by rewrite orb_true_r].
  rewrite orb_false_r.
  destruct (resolverCall g templates w pc over); [|done].
  by destruct (edgePendingUpdate w).
Qed.

(** X12.  The pending connection after [onConnectEnd]: it is kept, as
    it was, when the bail-out test failed and no node with a truthy id
    is hovered, and it is [null] in every other case, resolver success
    or failure alike. *)
Theorem onConnectEnd_pending_after (g : Resolver) (cte : Connection → Edge)
    (templates : Templates) (w : World) :
  pendingConnection (world_after (onConnectEnd g cte templates w))
  = if negb (bailOut w) && negb (truthy (mouseOverNode w))
    then pendingConnection w else None.
Proof.
  rewrite onConnectEnd_unfold, whenTruthy_truthy. simpl.
  destruct (bailOut w); simpl; [done|].
  destruct (pendingConnection w) as [pc|] eqn:Hpc; simpl.
  - destruct (whenTruthy (mouseOverNode w)) as [over|]; simpl; [|done].
    by destruct (resolverCall g templates w pc over).
  - rewrite Hpc. by destruct (whenTruthy (mouseOverNode w)).
Qed.

(** X13.  [onConnectEnd] consults the resolver at most once, for the
    candidate made of the pending end and the hovered node: two
    resolvers that agree on that one call give the same outcome, and
    in a world with no pending connection or no truthy hovered id the
    outcome does not depend on the resolver at all. *)
Theorem onConnectEnd_resolver_once (g1 g2 : Resolver) (cte : Connection → Edge)
    (templates : Templates) (w : World) :
  (∀ pc over,
     pendingConnection w = Some pc →
     whenTruthy (mouseOverNode w) = Some over →
     resolverCall g1 templates w pc over = resolverCall g2 templates w pc over) →
  onConnectEnd g1 cte templates w = onConnectEnd g2 cte templates w.
Proof.
  intros Hagree. rewrite !onConnectEnd_unfold.
  destruct (bailOut w); [done|].
  destruct (pendingConnection w) as [pc|]; [|done].
  destruct (whenTruthy (mouseOverNode w)) as [over|]; [|done].
  by rewrite (Hagree pc over).
Qed.

(** X14.  [onConnect] after a drag start: the world is the one
    [onConnect] alone would have left, whatever the start call tracked
    and whether it returned or threw. *)
Theorem onConnect_absorbs_start (cte : Connection → Edge) (templates : Templates)
    (p : OnConnectStartParams) (connection : Connection) (w : World) :
  world_after (onConnect cte connection
                 (world_after (onConnectStart templates p w)))
  = world_after (onConnect cte connection w).
Proof.
  rewrite onConnectStart_unfold.
  destruct (whenTruthy (params_nodeId p)); [|done].
  destruct (whenTruthy (params_handleId p)); [|done].
  destruct (params_handleType p); [|done].
  by destruct (lookupFieldTemplate _ _ _ _ _).
Qed.

(** X15.  A whole gesture: a drag start that tracks
    [{n, h, t, fieldTemplate}], then [onConnectEnd] over a node with a
    non-empty id while the bail-out test fails.  The resolver is asked
    about the record just tracked, against the store as it is; when it
    answers, the new edge is added in one batch (with the remove of the
    edge pending update, if any), the refresh follows, and no
    connection is pending afterwards. *)
Theorem gesture_start_then_end (g : Resolver) (cte : Connection → Edge)
    (templates : Templates) (p : OnConnectStartParams) (w : World)
    (n h : string) (t : HandleType)
    (node : Node) (template : Template) (ft : FieldTemplate)
    (over : string) (c : Connection) :
  params_nodeId p = Some n → params_handleId p = Some h →
  params_handleType p = Some t →
  n ≠ "" → h ≠ "" →
  find (λ x, bool_decide (node_id x = n)) (nodes w) = Some node →
  templates !! node_data_type node = Some template →
  fieldTemplatesOf t template !! h = Some ft →
  mouseOverNode w = Some over → over ≠ "" →
  bailOut w = false →
  resolverCall g templates w
    {| nodeId := n; handleId := h; handleType := t; fieldTemplate := Own ft |}
    over = Some c →
  ∃ w',
    onConnectEnd g cte templates (world_after (onConnectStart templates p w))
      = Returned () w'
    ∧ pendingConnection w' = None
    ∧ effects w' =
        effects w ++
          [DispatchEdgesChanged
             (EdgeAdd (cte c) :: removalOf (edgePendingUpdate w));
           UpdateNodeInternals
             (edge_source (cte c) :: edge_target (cte c)
              :: endpointsOf (edgePendingUpdate w))].
Proof.
  intros Hn Hh Ht Hne Hhe Hfind Htemplate Hft Hover Hovere Hbail Hres.
  rewrite onConnectStart_unfold, Hn, Hh, Ht.
  assert (whenTruthy (Some n) = Some n) as -> by by apply whenTruthy_Some.
  assert (whenTruthy (Some h) = Some h) as -> by by apply whenTruthy_Some.
  unfold lookupFieldTemplate.
  rewrite Hfind, (readProperty_own _ _ _ Htemplate), (readProperty_own _ _ _ Hft).
  simpl. rewrite onConnectEnd_unfold.
  change (bailOut (set_pendingConnection ?x w)) with (bailOut w).
  rewrite Hbail.
  cbn [pendingConnection set_pendingConnection mouseOverNode].
  rewrite Hover.
  assert (whenTruthy (Some over) = Some over) as -> by by apply whenTruthy_Some.
  change (resolverCall g templates (set_pendingConnection ?x w) ?pc over)
    with (resolverCall g templates w pc over).
  rewrite Hres.
  eexists. split; [reflexivity|]. split; [done|].
  simpl. rewrite <- app_assoc. simpl.
  by destruct (edgePendingUpdate w).
Qed.

(** * The properties on the example workflow *)

Import Example.

(** C6 on the example: three drags started in a row, the middle one on
    a handle the template does not have and the last one with no handle
    id; the record of the first one stays. *)
Lemma onConnectStarts_most_recent_witness :
  pendingConnection
    (onConnectStarts
       [startCall "A" "value" Source; startCall "B" "nope" Target;
        {| call_nodes := workflow; call_templates := templates;
           call_params := {| params_nodeId := Some "C"; params_handleId := None;
                             params_handleType := Some Target |} |}]
       idle)
  = Some fromA.
Proof. rewrite onConnectStarts_most_recent. reflexivity. Defined.

(** C1 on the example: [edgeAB] dragged off [B] and dropped on [C]. *)
Lemma onConnectEnd_reconnect_witness :
  ∃ w' ids,
    onConnectEnd connectAny connectionToEdge templates reconnecting = Returned () w'
    ∧ effects w' =
        effects reconnecting ++
          [DispatchEdgesChanged
             [EdgeAdd (connectionToEdge connectionAC); EdgeRemove (edge_id edgeAB)];
           UpdateNodeInternals ids]
    ∧ ids = [edge_source (connectionToEdge connectionAC);
             edge_target (connectionToEdge connectionAC);
             edge_source edgeAB; edge_target edgeAB]
    ∧ list_to_set ids =@{gset string}
        {[ edge_source (connectionToEdge connectionAC);
           edge_target (connectionToEdge connectionAC);
           edge_source edgeAB; edge_target edgeAB ]}
    ∧ didUpdateEdge w' = true.
Proof.
  apply (onConnectEnd_reconnect connectAny connectionToEdge templates
           reconnecting fromA "C" edgeAB connectionAC); reflexivity.
Defined.

(** C2 on the example: [edgeAB] dragged off and released over nothing. *)
Lemma onConnectEnd_bails_witness :
  ∃ w',
    onConnectEnd connectAny connectionToEdge templates detached = Returned () w'
    ∧ pendingConnection w' = None
    ∧ effects w' = effects detached
    ∧ nodes w' = nodes detached ∧ edges w' = edges detached
    ∧ edgePendingUpdate w' = edgePendingUpdate detached
    ∧ mouseOverNode w' = mouseOverNode detached
    ∧ didUpdateEdge w' = didUpdateEdge detached
    ∧ addNodeCmdk w' = addNodeCmdk detached.
Proof.
  apply (onConnectEnd_bails connectAny connectionToEdge templates detached).
  left. split; [discriminate | reflexivity].
Defined.

(** C3 on the example: the drag from [A.value] released over nothing. *)
Lemma onConnectEnd_empty_canvas_witness :
  ∃ w',
    onConnectEnd connectAny connectionToEdge templates dragging = Returned () w'
    ∧ addNodeCmdk w' = true
    ∧ pendingConnection w' = Some fromA
    ∧ effects w' = effects dragging
    ∧ nodes w' = nodes dragging ∧ edges w' = edges dragging
    ∧ edgePendingUpdate w' = edgePendingUpdate dragging
    ∧ mouseOverNode w' = mouseOverNode dragging
    ∧ didUpdateEdge w' = didUpdateEdge dragging.
Proof.
  apply (onConnectEnd_empty_canvas connectAny connectionToEdge templates
           dragging fromA); reflexivity.
Defined.

(** C5 on the example: released over [B], every candidate rejected. *)
Lemma onConnectEnd_rejected_witness :
  ∃ w',
    onConnectEnd connectNone connectionToEdge templates overB = Returned () w'
    ∧ pendingConnection w' = None
    ∧ effects w' = effects overB
    ∧ didUpdateEdge w' = didUpdateEdge overB
    ∧ addNodeCmdk w' = addNodeCmdk overB.
Proof.
  apply (onConnectEnd_rejected connectNone connectionToEdge templates
           overB fromA "B"); reflexivity.
Defined.

(** C7 as stated fails: with [nodeId] the empty string all three
    arguments are present, and the call throws. *)
Lemma onConnectStart_throws_on_empty_nodeId :
  ¬ (threw (onConnectStart templates (startParams "" "value" Source) idle) = true
     ↔ params_nodeId (startParams "" "value" Source) = None
       ∨ params_handleId (startParams "" "value" Source) = None
       ∨ params_handleType (startParams "" "value" Source) = None).
Proof.
  intros [Honly _].
  destruct (Honly eq_refl) as [H | [H | H]]; discriminate H.
Qed.

(** C7 as amended, on the example. *)
Lemma onConnectStart_throws_iff_witness :
  ((∃ w', onConnectStart templates (startParams "" "value" Source) idle
          = Thrown invalidStart w') ↔
     params_nodeId (startParams "" "value" Source) = None
     ∨ params_nodeId (startParams "" "value" Source) = Some ""
     ∨ params_handleId (startParams "" "value" Source) = None
     ∨ params_handleId (startParams "" "value" Source) = Some ""
     ∨ params_handleType (startParams "" "value" Source) = None)
  ∧ (threw (onConnectStart templates (startParams "" "value" Source) idle) = true →
     world_after (onConnectStart templates (startParams "" "value" Source) idle)
     = idle).
Proof.
  apply (onConnectStart_throws_iff templates (startParams "" "value" Source) idle).
Defined.

(** C8 as stated fails: all three arguments are present, node [A] and
    its template are found, the outputs have no entry for the empty
    handle id, and the call throws instead of returning. *)
Lemma onConnectStart_throws_on_empty_handleId :
  params_nodeId (startParams "A" "" Source) = Some "A"
  ∧ params_handleId (startParams "A" "" Source) = Some ""
  ∧ params_handleType (startParams "A" "" Source) = Some Source
  ∧ find (λ x, bool_decide (node_id x = "A")) (nodes dragging)
    = Some {| node_id := "A"; node_data_type := "add" |}
  ∧ templates !! "add" = Some addTemplate
  ∧ fieldTemplatesOf Source addTemplate !! "" = None
  ∧ onConnectStart templates (startParams "A" "" Source) dragging
    = Thrown invalidStart dragging
  ∧ onConnectStart templates (startParams "A" "" Source) dragging
    ≠ Returned () dragging.
Proof. repeat split; try reflexivity. discriminate. Qed.

(** C8 as amended, on the example: there is no node [Z]. *)
Lemma onConnectStart_miss_is_noop_witness :
  onConnectStart templates (startParams "Z" "value" Source) dragging
  = Returned () dragging
  ∧ pendingConnection
      (world_after (onConnectStart templates (startParams "Z" "value" Source) dragging))
    = pendingConnection dragging.
Proof.
  apply (onConnectStart_miss_is_noop templates (startParams "Z" "value" Source)
           dragging "Z" "value" Source); try reflexivity; try discriminate.
  left. reflexivity.
Defined.

(** C9 on the example: after the reconnection of [edgeAB] has been
    committed, a new drag start and a second [onConnectEnd] change
    nothing but [$pendingConnection]. *)
Lemma didUpdateEdge_latches_witness :
  didUpdateEdge
    (world_after
       (onConnectStart templates (startParams "B" "a" Target)
          (set_didUpdateEdge true reconnecting))) = true
  ∧ ∀ ts,
      onConnectEnd connectAny connectionToEdge ts
        (world_after
           (onConnectStart templates (startParams "B" "a" Target)
              (set_didUpdateEdge true reconnecting)))
      = Returned ()
          (set_pendingConnection None
             (world_after
                (onConnectStart templates (startParams "B" "a" Target)
                   (set_didUpdateEdge true reconnecting))))
      ∧ effects
          (set_pendingConnection None
             (world_after
                (onConnectStart templates (startParams "B" "a" Target)
                   (set_didUpdateEdge true reconnecting))))
        = effects
            (world_after
               (onConnectStart templates (startParams "B" "a" Target)
                  (set_didUpdateEdge true reconnecting)))
      ∧ addNodeCmdk
          (set_pendingConnection None
             (world_after
                (onConnectStart templates (startParams "B" "a" Target)
                   (set_didUpdateEdge true reconnecting))))
        = addNodeCmdk
            (world_after
               (onConnectStart templates (startParams "B" "a" Target)
                  (set_didUpdateEdge true reconnecting)))
      ∧ pendingConnection
          (world_after
             (onConnectEnd connectAny connectionToEdge ts
                (world_after
                   (onConnectStart templates (startParams "B" "a" Target)
                      (set_didUpdateEdge true reconnecting)))))
        = None.
Proof.
  apply (didUpdateEdge_latches connectAny connectionToEdge
           (set_didUpdateEdge true reconnecting)).
  - reflexivity.
  - apply rtc_once, step_handler, step_onConnectStart.
Defined.

(** C10 on the example: [onConnectEnd] with nothing being dragged. *)
Lemma onConnectEnd_idle_witness :
  onConnectEnd connectAny connectionToEdge templates idle = Returned () idle.
Proof.
  apply (onConnectEnd_idle connectAny connectionToEdge templates idle);
    reflexivity.
Defined.


(** X1 on the example: a drag started on the input [a] of [B] while the
    drag from [A.value] is still recorded replaces it. *)
Lemma onConnectStart_tracks_witness :
  ∃ w',
    onConnectStart templates (startParams "B" "a" Target) dragging = Returned () w'
    ∧ pendingConnection w' =
        Some {| nodeId := "B"; handleId := "a"; handleType := Target;
                fieldTemplate := Own (integerField "a") |}
    ∧ effects w' = effects dragging
    ∧ nodes w' = nodes dragging ∧ edges w' = edges dragging
    ∧ edgePendingUpdate w' = edgePendingUpdate dragging
    ∧ mouseOverNode w' = mouseOverNode dragging
    ∧ didUpdateEdge w' = didUpdateEdge dragging
    ∧ addNodeCmdk w' = addNodeCmdk dragging.
Proof.
  apply (onConnectStart_tracks templates (startParams "B" "a" Target) dragging
           "B" "a" Target {| node_id := "B"; node_data_type := "add" |}
           addTemplate (integerField "a"));
    try reflexivity; discriminate.
Defined.

(** X3 on the example: the drag from [A.value] released over [B]. *)
Lemma onConnectEnd_connects_from_source_witness :
  ∃ w',
    onConnectEnd connectAny connectionToEdge templates overB = Returned () w'
    ∧ effects w' =
        effects overB ++
          [DispatchEdgesChanged [EdgeAdd (connectionToEdge connectionAB)];
           UpdateNodeInternals
             [edge_source (connectionToEdge connectionAB);
              edge_target (connectionToEdge connectionAB)]]
    ∧ pendingConnection w' = None
    ∧ didUpdateEdge w' = false
    ∧ addNodeCmdk w' = addNodeCmdk overB.
Proof.
  apply (onConnectEnd_connects_from_source connectAny connectionToEdge templates
           overB fromA "B" connectionAB);
    try reflexivity; discriminate.
Defined.

(** X4 on the example: the drag from the input [a] of [B] released over
    [A]. *)
Lemma onConnectEnd_connects_to_target_witness :
  ∃ w',
    onConnectEnd connectAny connectionToEdge templates overA_toB = Returned () w'
    ∧ effects w' =
        effects overA_toB ++
          [DispatchEdgesChanged [EdgeAdd (connectionToEdge connectionAB)];
           UpdateNodeInternals
             [edge_source (connectionToEdge connectionAB);
              edge_target (connectionToEdge connectionAB)]]
    ∧ pendingConnection w' = None
    ∧ didUpdateEdge w' = false
    ∧ addNodeCmdk w' = addNodeCmdk overA_toB.
Proof.
  apply (onConnectEnd_connects_to_target connectAny connectionToEdge templates
           overA_toB toB "A" connectionAB);
    try reflexivity; discriminate.
Defined.

(** X5 on the example: nothing dragged, [$didUpdateEdge] true. *)
Lemma onConnectEnd_without_pending_witness :
  onConnectEnd connectAny connectionToEdge templates (set_didUpdateEdge true idle)
  = Returned () (set_didUpdateEdge true idle)
  ∧ effects
      (world_after
         (onConnectEnd connectAny connectionToEdge templates
            (set_didUpdateEdge true idle)))
    = effects (set_didUpdateEdge true idle).
Proof.
  apply (onConnectEnd_without_pending connectAny connectionToEdge templates
           (set_didUpdateEdge true idle)).
  reflexivity.
Defined.

(** X7 on the example: the reconnection of [edgeAB] committed, the
    store emptied, then a second [onConnectEnd] with another resolver. *)
Lemma onConnectEnd_twice_witness :
  onConnectEnd connectNone connectionToEdge ∅
    (set_nodes []
       (world_after
          (onConnectEnd connectAny connectionToEdge templates reconnecting)))
  = Returned ()
      (set_nodes []
         (world_after
            (onConnectEnd connectAny connectionToEdge templates reconnecting))).
Proof.
  apply (onConnectEnd_twice connectAny connectNone connectionToEdge connectionToEdge
           templates ∅ reconnecting).
  repeat split; reflexivity.
Defined.

(** X10 on the example: the call that commits the reconnection of
    [edgeAB]. *)
Lemma handlers_leave_renderer_cells_witness :
  edgePendingUpdate
    (world_after (onConnectEnd connectAny connectionToEdge templates reconnecting))
  = edgePendingUpdate reconnecting
  ∧ mouseOverNode
      (world_after (onConnectEnd connectAny connectionToEdge templates reconnecting))
    = mouseOverNode reconnecting
  ∧ (addNodeCmdk reconnecting = true →
     addNodeCmdk
       (world_after
          (onConnectEnd connectAny connectionToEdge templates reconnecting))
     = true).
Proof.
  apply (handlers_leave_renderer_cells connectAny connectionToEdge reconnecting).
  apply step_onConnectEnd.
Defined.

(** X13 on the example: over [A] itself the two example resolvers both
    reject the candidate, and the two outcomes are the same. *)
Lemma onConnectEnd_resolver_once_witness :
  onConnectEnd connectAny connectionToEdge templates overA
  = onConnectEnd connectNone connectionToEdge templates overA.
Proof.
  apply (onConnectEnd_resolver_once connectAny connectNone connectionToEdge
           templates overA).
  intros pc over Hpc Hover.
  injection Hpc as <-. injection Hover as <-. reflexivity.
Defined.

(** X15 on the example: a drag started on [A.value] with the pointer
    over [B], then released. *)
Lemma gesture_start_then_end_witness :
  ∃ w',
    onConnectEnd connectAny connectionToEdge templates
      (world_after (onConnectStart templates (startParams "A" "value" Source) hoverB))
    = Returned () w'
    ∧ pendingConnection w' = None
    ∧ effects w' =
        effects hoverB ++
          [DispatchEdgesChanged
             (EdgeAdd (connectionToEdge connectionAB)
              :: removalOf (edgePendingUpdate hoverB));
           UpdateNodeInternals
             (edge_source (connectionToEdge connectionAB)
              :: edge_target (connectionToEdge connectionAB)
              :: endpointsOf (edgePendingUpdate hoverB))].
Proof.
  apply (gesture_start_then_end connectAny connectionToEdge templates
           (startParams "A" "value" Source) hoverB "A" "value" Source
           {| node_id := "A"; node_data_type := "add" |} addTemplate
           (integerField "value") "B" connectionAB);
    try reflexivity; discriminate.
Defined.

(** X6 on the example: [onConnect] for [A.value -> B.a] while dragging
    over [B], the new edge put into the store, then [onConnectEnd]. *)
Lemma onConnectEnd_after_onConnect_witness :
  onConnectEnd connectAny connectionToEdge templates
    (set_edges (connectionToEdge connectionAB :: edges overB)
       (world_after (onConnect connectionToEdge connectionAB overB)))
  = Returned ()
      (set_edges (connectionToEdge connectionAB :: edges overB)
         (world_after (onConnect connectionToEdge connectionAB overB))).
Proof.
  apply (onConnectEnd_after_onConnect connectAny connectionToEdge connectionToEdge
           templates connectionAB overB).
  repeat split; reflexivity.
Defined.

(** X16 on the example: a drag started on the handle [constructor] of
    [A]; the outputs of [add] have no such field. *)
Lemma onConnectStart_tracks_inherited_witness :
  ∃ w',
    onConnectStart templates (startParams "A" "constructor" Source) idle
    = Returned () w'
    ∧ pendingConnection w' =
        Some {| nodeId := "A"; handleId := "constructor"; handleType := Source;
                fieldTemplate := Inherited "constructor" |}
    ∧ effects w' = effects idle.
Proof.
  apply (onConnectStart_tracks_inherited templates
           (startParams "A" "constructor" Source) idle "A" "constructor" Source
           {| node_id := "A"; node_data_type := "add" |} addTemplate);
    try reflexivity; try discriminate.
  apply (bool_decide_eq_true_1 ("constructor" ∈ objectPrototype)). reflexivity.
Defined.

(** X17 on the example: a drag started on node [D], whose type is
    [constructor]. *)
Lemma onConnectStart_inherited_type_throws_witness :
  onConnectStart templates (startParams "D" "value" Source) withD
  = Thrown readOfUndefined withD
  ∧ readOfUndefined ≠ invalidStart.
Proof.
  apply (onConnectStart_inherited_type_throws templates
           (startParams "D" "value" Source) withD "D" "value" Source
           {| node_id := "D"; node_data_type := "constructor" |});
    try reflexivity; try discriminate.
  apply (bool_decide_eq_true_1 ("constructor" ∈ objectPrototype)). reflexivity.
Defined.
